(** * A shallow embedding of the Keycloak / React Router demo

    The application is a thin shim around two external libraries: the
    [keycloak-js] adapter and React Router.  The embedding keeps the external
    calls the code issues as a trace of [Call]s, the JSX the components return
    as an [Element] tree, and the singleton [keycloak] object as a record
    whose [authenticated] property and callback slots are read and written the
    way the TypeScript does it. *)

From Stdlib Require Import Ascii String List Bool Arith Lia.
Import ListNotations.
Open Scope string_scope.
Set Warnings "-register-all".

(** ** JavaScript values *)

Module Js.

(** Truthiness of a [string | undefined]: [undefined] and the empty string
    are falsy. *)
Definition truthy_string (v : option string) : bool :=
  match v with
  | Some s => negb (s =? "")
  | None => false
  end.

(** Truthiness of a [boolean | undefined]. *)
Definition truthy (v : option bool) : bool :=
  match v with
  | Some b => b
  | None => false
  end.

(** [v || d] on a [string | undefined] with a string default. *)
Definition or_else (v : option string) (d : string) : string :=
  match v with
  | Some s => if s =? "" then d else s
  | None => d
  end.

(** [v ?? d] on a [boolean | undefined]. *)
Definition nullish (v : option bool) (d : bool) : bool :=
  match v with
  | Some b => b
  | None => d
  end.

(** Outcome of a top-level script: it runs to completion or throws. *)
Inductive Outcome (A : Type) : Type :=
| Ok (a : A)
| Throw (message : string).
Arguments Ok {A} a.
Arguments Throw {A} message.

End Js.

(** ** JSX elements *)

(** The value React Router's [Navigate] carries in its [state] prop. *)
Record NavigationIntent := { from : string }.

(** Components of the application, as they occur in element position. *)
Inductive ComponentRef :=
| App_ref
| Navbar_ref
| PublicPage_ref
| ProtectedPage_ref
| ProtectedRoute_ref.

Inductive Element :=
| null
| text (s : string)
| el (tag : string) (children : list Element)
| jsx (c : ComponentRef)
| Outlet
| Navigate (to : string) (state : option NavigationIntent) (replace : bool).

Definition div := el "div".
Definition h2 (s : string) := el "h2" [text s].
Definition p (s : string) := el "p" [text s].
Definition pre (s : string) := el "pre" [text s].
Definition StrictMode := el "React.StrictMode".

(** React Router puts the matched child route's element where the layout
    route's element has its [<Outlet />]. *)
Fixpoint fillOutlet (child : Element) (e : Element) : Element :=
  match e with
  | Outlet => child
  | el tag cs => el tag (map (fillOutlet child) cs)
  | _ => e
  end.

(** Components mounted somewhere in a tree. *)
Fixpoint mounted (e : Element) : list ComponentRef :=
  match e with
  | jsx c => [c]
  | el _ cs => flat_map mounted cs
  | _ => []
  end.

(** Text nodes of a tree, in document order. *)
Fixpoint textOf (e : Element) : list string :=
  match e with
  | text s => [s]
  | el _ cs => flat_map textOf cs
  | _ => []
  end.


Fixpoint rendersOutlet (e : Element) : bool :=
  match e with
  | Outlet => true
  | el _ cs => existsb rendersOutlet cs
  | _ => false
  end.

(** ** The adapter object and the calls made on it *)

Record KeycloakConfig := {
  url : option string;
  realm : option string;
  clientId : option string
}.

Record InitOptions := { onLoad : string; pkceMethod : string }.

(** The closures the navigation bar stores in the adapter's callback slots. *)
Inductive Handler :=
| updateAuthState_fn
| refreshError_fn
| tokenExpired_fn.

(** The part of the [Keycloak] instance the application reads or writes:
    [authenticated] is [boolean | undefined], each slot a function or
    [undefined]. *)
Record Keycloak := {
  config : KeycloakConfig;
  authenticated : option bool;
  onAuthSuccess : option Handler;
  onAuthLogout : option Handler;
  onAuthRefreshSuccess : option Handler;
  onAuthRefreshError : option Handler;
  onTokenExpired : option Handler
}.

(** [new Keycloak(cfg)]: nothing is known about the session and no callback is
    registered. *)
Definition newKeycloak (cfg : KeycloakConfig) : Keycloak :=
  {| config := cfg;
     authenticated := None;
     onAuthSuccess := None;
     onAuthLogout := None;
     onAuthRefreshSuccess := None;
     onAuthRefreshError := None;
     onTokenExpired := None |}.

(** The adapter is the only writer of [authenticated]. *)
Definition setAuthenticated (a : option bool) (kc : Keycloak) : Keycloak :=
  {| config := config kc;
     authenticated := a;
     onAuthSuccess := onAuthSuccess kc;
     onAuthLogout := onAuthLogout kc;
     onAuthRefreshSuccess := onAuthRefreshSuccess kc;
     onAuthRefreshError := onAuthRefreshError kc;
     onTokenExpired := onTokenExpired kc |}.

(** The rejection reason of a promise, kept as the text
    [JSON.stringify(error, null, 2)] yields for it. *)
Definition ErrorValue := string.

(** Observable calls, in program order. *)
Inductive Call :=
| ConsoleLog (msg : string)
| ConsoleWarn (msg : string)
| ConsoleError (msg : string) (detail : option ErrorValue)
| Alert (msg : string)
| KeycloakNew (cfg : KeycloakConfig)
| KeycloakInit (opts : InitOptions)
| KeycloakLogin
| KeycloakLogout
| KeycloakUpdateToken (minValidity : nat)
| RootRender (e : Element).

Definition isLogout (c : Call) : bool :=
  match c with KeycloakLogout => true | _ => false end.

Definition isUpdateToken (c : Call) : bool :=
  match c with KeycloakUpdateToken _ => true | _ => false end.

Definition isInit (c : Call) : bool :=
  match c with KeycloakInit _ => true | _ => false end.

Definition isLogin (c : Call) : bool :=
  match c with KeycloakLogin => true | _ => false end.

(** A message put in front of the person at the screen or in the console as a
    warning or an error. *)
Definition isComplaint (c : Call) : bool :=
  match c with
  | Alert _ | ConsoleWarn _ | ConsoleError _ _ => true
  | _ => false
  end.

Definition count (f : Call -> bool) (cs : list Call) : nat :=
  length (filter f cs).

(** ** src/keycloak.ts and src/security/keycloak.ts *)

Record ImportMetaEnv := {
  VITE_KEYCLOAK_URL : option string;
  VITE_KEYCLOAK_REALM : option string;
  VITE_KEYCLOAK_CLIENT_ID : option string
}.

Module KeycloakTs.

Definition keycloakUrl (env : ImportMetaEnv) : string :=
  Js.or_else (VITE_KEYCLOAK_URL env) "http://localhost:7777".
Definition keycloakRealm (env : ImportMetaEnv) : string :=
  Js.or_else (VITE_KEYCLOAK_REALM env) "viprealm".
Definition keycloakClientId (env : ImportMetaEnv) : string :=
  Js.or_else (VITE_KEYCLOAK_CLIENT_ID env) "vipclient".

Definition keycloakConfig (env : ImportMetaEnv) : KeycloakConfig :=
  {| url := Some (keycloakUrl env);
     realm := Some (keycloakRealm env);
     clientId := Some (keycloakClientId env) |}.

(** Evaluating the module: the calls it makes and the instance it exports. *)
Definition keycloak (env : ImportMetaEnv) : list Call * Keycloak :=
  ([KeycloakNew (keycloakConfig env)], newKeycloak (keycloakConfig env)).

End KeycloakTs.

Module SecurityKeycloakTs.

Definition keycloakConfig (env : ImportMetaEnv) : KeycloakConfig :=
  {| url := VITE_KEYCLOAK_URL env;
     realm := VITE_KEYCLOAK_REALM env;
     clientId := VITE_KEYCLOAK_CLIENT_ID env |}.

Definition keycloak (env : ImportMetaEnv) : list Call * Keycloak :=
  (app (if negb (Js.truthy_string (VITE_KEYCLOAK_URL env))
        then [Alert "Error ENV not Set !"] else [])
       [KeycloakNew (keycloakConfig env)],
   newKeycloak (keycloakConfig env)).

End SecurityKeycloakTs.

(** Some required value is absent from the environment. *)
Definition missingValue (env : ImportMetaEnv) : bool :=
  negb (Js.truthy_string (VITE_KEYCLOAK_URL env))
  || negb (Js.truthy_string (VITE_KEYCLOAK_REALM env))
  || negb (Js.truthy_string (VITE_KEYCLOAK_CLIENT_ID env)).

(** ** src/components/ProtectedRoute.tsx *)

Definition unauthorizedMessage : Element :=
  div [h2 "Unauthorized"; p "You need to log in to access this page."].

(** The guard reads [keycloak.authenticated] and returns the calls it makes
    while rendering together with the element it renders. *)
Definition ProtectedRoute (keycloak : Keycloak) : list Call * Element :=
  let isAuthenticated := authenticated keycloak in
  if negb (Js.truthy isAuthenticated)
  then ([ConsoleWarn "User is not authenticated. Redirecting to Home."],
        unauthorizedMessage)
  else ([], Outlet).

(** ** src/App.tsx *)

(** React Router compiles each route path to a regular expression with the
    [i] flag.  For ["/protected"] it accepts that text followed by any number
    of slashes, for ["/"] one or more slashes, and for ["*"] a slash followed
    by any characters that the dot matches.  A [location] is the pathname
    the matcher is given, percent-decoded, as UTF-8 text. *)

(** The [i] flag makes the ASCII letters compare without regard to case. *)
Definition lowerAscii (c : ascii) : ascii :=
  let n := nat_of_ascii c in
  if Nat.leb 65 n && Nat.leb n 90 then ascii_of_nat (n + 32) else c.

Fixpoint lower (s : string) : string :=
  match s with
  | EmptyString => EmptyString
  | String c rest => String (lowerAscii c) (lower rest)
  end.

(** Any number of slashes may follow the path. *)
Fixpoint stripSlashes (s : string) : string :=
  match s with
  | EmptyString => EmptyString
  | String c rest =>
      let rest' := stripSlashes rest in
      if Ascii.eqb c "/" && (rest' =? "") then EmptyString
      else String c rest'
  end.

(** The characters [.] does not match: line feed, carriage return and the
    line and paragraph separators U+2028 and U+2029. *)
Fixpoint hasLineTerminator (s : string) : bool :=
  match s with
  | EmptyString => false
  | String c rest =>
      let n := nat_of_ascii c in
      Nat.eqb n 10 || Nat.eqb n 13
      || match rest with
         | String c1 (String c2 _) =>
             Nat.eqb n 226 && Nat.eqb (nat_of_ascii c1) 128
             && (Nat.eqb (nat_of_ascii c2) 168
                 || Nat.eqb (nat_of_ascii c2) 169)
         | _ => false
         end
      || hasLineTerminator rest
  end.

(** [path="/"]: only slashes; an empty pathname is read as ["/"]. *)
Definition matchesRoot (location : string) : bool :=
  stripSlashes location =? "".

(** [path="/protected"]. *)
Definition matchesProtected (location : string) : bool :=
  lower (stripSlashes location) =? "/protected".

(** [path="*"]. *)
Definition matchesSplat (location : string) : bool :=
  match location with
  | String c rest => Ascii.eqb c "/" && negb (hasLineTerminator rest)
  | EmptyString => false
  end.

(** The branch of route elements [<Routes>] matches for a location,
    outermost first, the most specific path winning: ["/"] is the public
    page, ["/protected"] sits below the pathless guard route, anything else
    falls to ["*"]; when not even that matches, nothing is rendered. *)
Definition Routes (location : string) : list Element :=
  if matchesRoot location then [jsx PublicPage_ref]
  else if matchesProtected location
       then [jsx ProtectedRoute_ref; jsx ProtectedPage_ref]
       else if matchesSplat location then [h2 "404 - Page Not Found"]
            else [].

Definition guarded (location : string) : bool :=
  existsb (fun e => match e with jsx ProtectedRoute_ref => true | _ => false end)
          (Routes location).

(** Rendering a matched branch: the guard is the only component of the
    application that renders an outlet. *)
Fixpoint renderBranch (keycloak : Keycloak) (branch : list Element)
  : list Call * Element :=
  match branch with
  | [] => ([], null)
  | jsx ProtectedRoute_ref :: rest =>
      let (calls, out) := ProtectedRoute keycloak in
      if rendersOutlet out
      then let (calls', inner) := renderBranch keycloak rest in
           (app calls calls', fillOutlet inner out)
      else (calls, out)
  | e :: _ => ([], e)
  end.

(** What one navigation to [location] puts in the route area. *)
Definition navigate (keycloak : Keycloak) (location : string)
  : list Call * Element :=
  renderBranch keycloak (Routes location).

(** The application at a location: the navigation bar above the route
    area. *)
Definition App (keycloak : Keycloak) (location : string)
  : list Call * Element :=
  let (calls, area) := navigate keycloak location in
  (calls, el "BrowserRouter" [jsx Navbar_ref; div [area]]).

(** ** src/main.tsx *)

Module Main.

Definition loading : Element :=
  StrictMode [div [text "Initializing Keycloak..."]].

Definition app : Element := StrictMode [jsx App_ref].

Definition errorPanel (error : ErrorValue) : Element :=
  StrictMode
    [div [h2 "Error Initializing Keycloak";
          p "Could not connect to the authentication server. Please check the console for details and ensure Keycloak is running and configured correctly.";
          pre error]].

Definition initOptions : InitOptions :=
  {| onLoad := "login-required"; pkceMethod := "S256" |}.

(** The promise [keycloak.init(...)] returns. *)
Inductive InitPromise :=
| Pending
| Fulfilled (authenticated : bool)
| Rejected (error : ErrorValue).

(** The browser page: what the React root shows, the calls made so far and
    the state of the initialization promise. *)
Record Page := {
  displayed : Element;
  trace : list Call;
  init : InitPromise
}.

(** The script body, after its imports have been evaluated.  [rootElement]
    tells whether [document.getElementById('root')] found a node. *)
Definition main (env : ImportMetaEnv) (rootElement : bool) : Js.Outcome Page :=
  let (imports, _) := KeycloakTs.keycloak env in
  if negb rootElement then Js.Throw "Failed to find the root element"
  else Js.Ok {| displayed := loading;
                trace := (imports ++ [RootRender loading;
                                      KeycloakInit initOptions])%list;
                init := Pending |}.

(** The [.then] callback. *)
Definition onFulfilled (authenticated : bool) (pg : Page) : Page :=
  {| displayed := app;
     trace := (trace pg ++
               [ConsoleLog ("Keycloak initialized. User is "
                            ++ (if authenticated then "authenticated"
                                else "not authenticated") ++ ".");
                RootRender app])%list;
     init := Fulfilled authenticated |}.

(** The [.catch] callback. *)
Definition onRejected (error : ErrorValue) (pg : Page) : Page :=
  {| displayed := errorPanel error;
     trace := (trace pg ++
               [ConsoleError "Keycloak initialization failed:" (Some error);
                RootRender (errorPanel error)])%list;
     init := Rejected error |}.

(** What the adapter does with the promise. *)
Inductive Settlement :=
| resolve (authenticated : bool)
| reject (error : ErrorValue).

(** A promise settles at most once: later settlements are ignored. *)
Definition settle (s : Settlement) (pg : Page) : Page :=
  match init pg with
  | Pending =>
      match s with
      | resolve a => onFulfilled a pg
      | reject e => onRejected e pg
      end
  | _ => pg
  end.

Definition run (ss : list Settlement) (pg : Page) : Page :=
  fold_left (fun acc s => settle s acc) ss pg.

(** Route content is on screen when the application component is mounted. *)
Definition showsRoutes (pg : Page) : bool :=
  existsb (fun c => match c with App_ref => true | _ => false end)
          (mounted (displayed pg)).

End Main.

(** ** src/components/Navbar.tsx *)

Module Navbar.

(** The promise [keycloak.updateToken(30)] returns: it resolves with
    whether the token was refreshed, or rejects. *)
Inductive RefreshResult :=
| refreshed (b : bool)
| failed.

(** The singleton the component imports, its [useState] cell, the calls made
    so far and the number of [updateToken] promises still pending, each with
    the [.catch] callback attached. *)
Record Session := {
  keycloak : Keycloak;
  isAuthenticated : option bool;
  calls : list Call;
  refreshing : nat
}.

Definition emit (c : Call) (s : Session) : Session :=
  {| keycloak := keycloak s;
     isAuthenticated := isAuthenticated s;
     calls := (calls s ++ [c])%list;
     refreshing := refreshing s |}.

Definition setIsAuthenticated (b : bool) (s : Session) : Session :=
  {| keycloak := keycloak s;
     isAuthenticated := Some b;
     calls := calls s;
     refreshing := refreshing s |}.

Definition withKeycloak (kc : Keycloak) (s : Session) : Session :=
  {| keycloak := kc;
     isAuthenticated := isAuthenticated s;
     calls := calls s;
     refreshing := refreshing s |}.

(** First render: [useState(keycloak.authenticated)]. *)
Definition mount (kc : Keycloak) : Session :=
  {| keycloak := kc;
     isAuthenticated := authenticated kc;
     calls := [];
     refreshing := 0 |}.

Definition updateAuthState (s : Session) : Session :=
  setIsAuthenticated (Js.nullish (authenticated (keycloak s)) false) s.

Definition onAuthRefreshError_body (s : Session) : Session :=
  emit KeycloakLogout (emit (ConsoleWarn "Auth refresh error, logging out") s).

Definition onTokenExpired_body (s : Session) : Session :=
  let s1 := emit (ConsoleWarn "Token expired, attempting refresh") s in
  let s2 := emit (KeycloakUpdateToken 30) s1 in
  {| keycloak := keycloak s2;
     isAuthenticated := isAuthenticated s2;
     calls := calls s2;
     refreshing := S (refreshing s2) |}.

(** The [.catch] callback on the [updateToken] promise. *)
Definition onUpdateTokenRejected (s : Session) : Session :=
  emit KeycloakLogout
       (emit (ConsoleError "Failed to refresh token, logging out" None) s).

Definition call (h : Handler) : Session -> Session :=
  match h with
  | updateAuthState_fn => updateAuthState
  | refreshError_fn => onAuthRefreshError_body
  | tokenExpired_fn => onTokenExpired_body
  end.

(** The body of the [useEffect] callback: the five assignments, then the
    initial check. *)
Definition effect (s : Session) : Session :=
  let kc := keycloak s in
  let kc' :=
    {| config := config kc;
       authenticated := authenticated kc;
       onAuthSuccess := Some updateAuthState_fn;
       onAuthLogout := Some updateAuthState_fn;
       onAuthRefreshSuccess := Some updateAuthState_fn;
       onAuthRefreshError := Some refreshError_fn;
       onTokenExpired := Some tokenExpired_fn |} in
  updateAuthState (withKeycloak kc' s).

Definition handleLogin (s : Session) : Session := emit KeycloakLogin s.

Definition handleLogout (s : Session) : Session :=
  emit KeycloakLogout (emit (Alert "logout") s).

(** The notifications the adapter delivers through its callback slots. *)
Inductive AdapterEvent :=
| AuthSuccess
| AuthLogout
| AuthRefreshSuccess
| AuthRefreshError
| TokenExpired.

Definition slot (e : AdapterEvent) : Keycloak -> option Handler :=
  match e with
  | AuthSuccess => onAuthSuccess
  | AuthLogout => onAuthLogout
  | AuthRefreshSuccess => onAuthRefreshSuccess
  | AuthRefreshError => onAuthRefreshError
  | TokenExpired => onTokenExpired
  end.

(** The adapter invokes a slot only when a function is stored in it. *)
Definition deliver (e : AdapterEvent) (s : Session) : Session :=
  match slot e (keycloak s) with
  | Some h => call h s
  | None => s
  end.

(** The adapter writes its own [authenticated] property. *)
Definition adapterSets (a : option bool) (s : Session) : Session :=
  withKeycloak (setAuthenticated a (keycloak s)) s.

(** A pending [updateToken] promise settles. *)
Definition settleUpdateToken (r : RefreshResult) (s : Session) : Session :=
  match refreshing s with
  | 0 => s
  | S n =>
      let s' := {| keycloak := keycloak s;
                   isAuthenticated := isAuthenticated s;
                   calls := calls s;
                   refreshing := n |} in
      match r with
      | refreshed _ => s'
      | failed => onUpdateTokenRejected s'
      end
  end.

(** The button the bar shows is chosen by the state cell. *)
Definition clickButton (s : Session) : Session :=
  if Js.truthy (isAuthenticated s) then handleLogout s else handleLogin s.

(** Everything that can happen to the mounted component. *)
Inductive Input :=
| flag (a : option bool)
| event (e : AdapterEvent)
| updateTokenSettles (r : RefreshResult)
| click.

Definition step (i : Input) (s : Session) : Session :=
  match i with
  | flag a => adapterSets a s
  | event e => deliver e s
  | updateTokenSettles r => settleUpdateToken r s
  | click => clickButton s
  end.

Definition run (inputs : list Input) (s : Session) : Session :=
  fold_left (fun acc i => step i acc) inputs s.

(** The component after its first render and its effect. *)
Definition start (kc : Keycloak) : Session := effect (mount kc).

(** The calls a step added to the trace. *)
Definition issued (before after : Session) : list Call :=
  skipn (length (calls before)) (calls after).

End Navbar.

(** ** Scenarios *)

(** The configuration of the specification's scenarios, and the same
    environment with the endpoint left out. *)
Definition scenarioEnv : ImportMetaEnv :=
  {| VITE_KEYCLOAK_URL := Some "http://id.example";
     VITE_KEYCLOAK_REALM := Some "r1";
     VITE_KEYCLOAK_CLIENT_ID := Some "c1" |}.

Definition noEndpointEnv : ImportMetaEnv :=
  {| VITE_KEYCLOAK_URL := None;
     VITE_KEYCLOAK_REALM := Some "r1";
     VITE_KEYCLOAK_CLIENT_ID := Some "c1" |}.

(** A handle on which bootstrap has not run, one on which it settled without
    a session and one on which it found a session. *)
Definition freshHandle : Keycloak :=
  newKeycloak (KeycloakTs.keycloakConfig scenarioEnv).

Definition anonymousHandle : Keycloak :=
  setAuthenticated (Some false) freshHandle.

Definition signedInHandle : Keycloak :=
  setAuthenticated (Some true) freshHandle.

(** ** Invariants of the mounted navigation bar *)

(** The function each slot holds once the effect has run. *)
Definition registered (e : Navbar.AdapterEvent) : Handler :=
  match e with
  | Navbar.AuthSuccess | Navbar.AuthLogout | Navbar.AuthRefreshSuccess =>
      updateAuthState_fn
  | Navbar.AuthRefreshError => refreshError_fn
  | Navbar.TokenExpired => tokenExpired_fn
  end.

Definition subscribed (s : Navbar.Session) : Prop :=
  forall e, Navbar.slot e (Navbar.keycloak s) = Some (registered e).

Definition definite (s : Navbar.Session) : Prop :=
  exists b : bool, Navbar.isAuthenticated s = Some b.

(** [n] refresh failures in a row. *)
Definition refreshFailures (n : nat) : list Navbar.Input :=
  repeat (Navbar.event Navbar.AuthRefreshError) n.

(** ** src/pages/ProtectedPage.tsx *)

(** The claims of the parsed token the page reads.  [realm_access] stands
    for [realm_access?.roles]. *)
Record TokenParsed := {
  preferred_username : option string;
  email : option string;
  realm_access : option (list string)
}.

Definition childrenOf (e : Element) : list Element :=
  match e with
  | el _ cs => cs
  | _ => []
  end.

(** [v && e] in child position: [undefined] renders nothing, the empty
    string renders as itself, any other string gives the element. *)
Definition andThen (v : option string) (e : string -> Element) : Element :=
  match v with
  | None => null
  | Some s => if s =? "" then text "" else e s
  end.

Section ProtectedPageTsx.

(** The JSON text of a string, and [JSON.stringify(token, null, 2)]. *)
Variable quote : string -> string.
Variable stringifyToken : TokenParsed -> string.

(** [JSON.stringify] of a [string[] | undefined]. *)
Definition stringifyRoles (roles : option (list string)) : option string :=
  match roles with
  | Some rs => Some ("[" ++ String.concat "," (map quote rs) ++ "]")
  | None => None
  end.

(** The component, given the value of [keycloak.tokenParsed]. *)
Definition ProtectedPage (tokenParsed : option TokenParsed) : Element :=
  let username :=
    match tokenParsed with Some t => preferred_username t | None => None end in
  let email :=
    match tokenParsed with Some t => email t | None => None end in
  let roles :=
    stringifyRoles
      (match tokenParsed with Some t => realm_access t | None => None end) in
  div [el "h1" [text "Protected Page"];
       p "If you see this, you are logged in!";
       andThen username (fun u => el "p" [text "Username: "; text u]);
       andThen email (fun m => el "p" [text "Email: "; text m]);
       andThen roles (fun r => el "p" [text "Roles: "; text r]);
       el "pre" [text "Token Parsed: ";
                 match tokenParsed with
                 | Some t => text (stringifyToken t)
                 | None => null
                 end]].

End ProtectedPageTsx.

(** ** Inputs by what they can cause *)

(** The inputs whose handling contains a [keycloak.logout()] call. *)
Definition mayLogOut (i : Navbar.Input) : bool :=
  match i with
  | Navbar.event Navbar.AuthRefreshError => true
  | Navbar.updateTokenSettles Navbar.failed => true
  | Navbar.click => true
  | _ => false
  end.

Definition isTokenExpiry (i : Navbar.Input) : bool :=
  match i with
  | Navbar.event Navbar.TokenExpired => true
  | _ => false
  end.

(** The three events whose slot holds [updateAuthState]. *)
Definition refreshesCell (e : Navbar.AdapterEvent) : bool :=
  match e with
  | Navbar.AuthSuccess | Navbar.AuthLogout | Navbar.AuthRefreshSuccess => true
  | _ => false
  end.

(** No function is stored in any callback slot. *)
Definition unsubscribed (kc : Keycloak) : Prop :=
  forall e, Navbar.slot e kc = None.

(** * Properties *)

(** ** Auxiliary facts on traces and lists *)

Lemma count_app (f : Call -> bool) (xs ys : list Call) :
  count f (xs ++ ys)%list = count f xs + count f ys.
Proof. unfold count. now rewrite filter_app, length_app. Qed.

Lemma skipn_length_app {A : Type} (xs ys : list A) :
  skipn (length xs) (xs ++ ys)%list = ys.
Proof. induction xs as [|x xs IH]; simpl; auto. Qed.

Lemma issued_app (s s' : Navbar.Session) (cs : list Call) :
  Navbar.calls s' = (Navbar.calls s ++ cs)%list -> Navbar.issued s s' = cs.
Proof. unfold Navbar.issued. intros ->. apply skipn_length_app. Qed.

(** ** The route table *)


Lemma guarded_protected : guarded "/protected" = true.
Proof. reflexivity. Qed.

(** ** The guard *)


Lemma ProtectedRoute_truthy (kc : Keycloak) :
  Js.truthy (authenticated kc) = true -> ProtectedRoute kc = ([], Outlet).
Proof. unfold ProtectedRoute. now intros ->. Qed.


Example guard_lets_signed_in_through :
  navigate signedInHandle "/protected" = ([], jsx ProtectedPage_ref).
Proof. reflexivity. Qed.

(** A trailing slash or another letter case reaches the same routes. *)
Example guard_covers_path_variants :
  map guarded ["/protected"; "/protected/"; "/PROTECTED"; "/Protected//"]
  = [true; true; true; true] /\
  map guarded ["/"; "//"; "/about"; "/protected/x"; "/protectedx"]
  = [false; false; false; false; false].
Proof. split; reflexivity. Qed.

Example guard_denies_path_variants :
  navigate anonymousHandle "/PROTECTED/" = navigate anonymousHandle "/protected"
  /\ snd (navigate anonymousHandle "/protected/") = unauthorizedMessage.
Proof. split; reflexivity. Qed.

Example public_page_not_gated :
  navigate anonymousHandle "/" = ([], jsx PublicPage_ref).
Proof. reflexivity. Qed.




(** C9: with the flag undefined the guard takes the branch it takes for
    [authenticated = false]: both renders return the same calls and the same
    element, the inline Unauthorized message. *)
Theorem guard_undefined_same_as_false (kc kc' : Keycloak) :
  authenticated kc = None ->
  authenticated kc' = Some false ->
  ProtectedRoute kc = ProtectedRoute kc' /\
  snd (ProtectedRoute kc) = unauthorizedMessage /\
  textOf (snd (ProtectedRoute kc))
    = ["Unauthorized"; "You need to log in to access this page."].
Proof.
  intros Hu Hf. unfold ProtectedRoute. rewrite Hu, Hf. repeat split.
Qed.

Lemma guard_undefined_same_as_false_witness :
  ProtectedRoute freshHandle = ProtectedRoute anonymousHandle /\
  snd (ProtectedRoute freshHandle) = unauthorizedMessage /\
  textOf (snd (ProtectedRoute freshHandle))
    = ["Unauthorized"; "You need to log in to access this page."].
Proof.
  apply (guard_undefined_same_as_false freshHandle anonymousHandle);
    reflexivity.
Defined.




(** ** Configuration *)

Lemma or_else_truthy (v : option string) (d : string) :
  Some (Js.or_else v d) = if Js.truthy_string v then v else Some d.
Proof.
  destruct v as [s|]; simpl; [|reflexivity].
  now destruct (s =? "").
Qed.

Lemma or_else_nonempty (v : option string) (d : string) :
  d <> "" -> Js.truthy_string (Some (Js.or_else v d)) = true.
Proof.
  intros Hd. destruct v as [s|]; simpl.
  - destruct (s =? "") eqn:E; simpl; [|now rewrite E].
    apply negb_true_iff, eqb_neq, Hd.
  - apply negb_true_iff, eqb_neq, Hd.
Qed.

Lemma main_runs (env : ImportMetaEnv) :
  Main.main env true =
    Js.Ok {| Main.displayed := Main.loading;
             Main.trace := [KeycloakNew (KeycloakTs.keycloakConfig env);
                            RootRender Main.loading;
                            KeycloakInit Main.initOptions];
             Main.init := Main.Pending |}.
Proof. reflexivity. Qed.

Lemma main_ok_inv (env : ImportMetaEnv) (rootElement : bool) (pg : Main.Page) :
  Main.main env rootElement = Js.Ok pg ->
  rootElement = true /\
  pg = {| Main.displayed := Main.loading;
          Main.trace := [KeycloakNew (KeycloakTs.keycloakConfig env);
                         RootRender Main.loading;
                         KeycloakInit Main.initOptions];
          Main.init := Main.Pending |}.
Proof.
  destruct rootElement; cbn; intros H; [|discriminate].
  now inversion H.
Qed.

(** C2, as the specification words it, fails: with the endpoint missing from
    the environment the script does not halt.  The adapter is constructed
    with the built-in endpoint in its place, [init] is invoked and no message
    is shown or logged. *)
Lemma missing_endpoint_does_not_halt :
  missingValue noEndpointEnv = true /\
  exists pg,
    Main.main noEndpointEnv true = Js.Ok pg /\
    count isInit (Main.trace pg) = 1 /\
    count isComplaint (Main.trace pg) = 0 /\
    In (KeycloakNew {| url := Some "http://localhost:7777";
                       realm := Some "r1";
                       clientId := Some "c1" |}) (Main.trace pg).
Proof.
  split; [reflexivity|]. eexists. split; [apply main_runs|].
  repeat split. left. reflexivity.
Qed.

(** C2 (amended): the configuration module the application imports replaces
    each missing (undefined or empty) value by its built-in default and
    passes every present value through, so the adapter is never constructed
    with an empty value; startup then goes on to invoke [init] once, with no
    error message.  The alternative module under [security/] shows an alert
    exactly when the endpoint is missing. *)
Theorem missing_configuration_takes_defaults (env : ImportMetaEnv) :
  let cfg := KeycloakTs.keycloakConfig env in
  url cfg = (if Js.truthy_string (VITE_KEYCLOAK_URL env)
             then VITE_KEYCLOAK_URL env else Some "http://localhost:7777") /\
  realm cfg = (if Js.truthy_string (VITE_KEYCLOAK_REALM env)
               then VITE_KEYCLOAK_REALM env else Some "viprealm") /\
  clientId cfg = (if Js.truthy_string (VITE_KEYCLOAK_CLIENT_ID env)
                  then VITE_KEYCLOAK_CLIENT_ID env else Some "vipclient") /\
  Js.truthy_string (url cfg) && Js.truthy_string (realm cfg)
    && Js.truthy_string (clientId cfg) = true /\
  (exists pg,
      Main.main env true = Js.Ok pg /\
      In (KeycloakNew cfg) (Main.trace pg) /\
      count isInit (Main.trace pg) = 1 /\
      count isComplaint (Main.trace pg) = 0) /\
  count isComplaint (fst (SecurityKeycloakTs.keycloak env))
    = (if Js.truthy_string (VITE_KEYCLOAK_URL env) then 0 else 1).
Proof.
  cbn zeta. unfold KeycloakTs.keycloakConfig; cbn [url realm clientId].
  unfold KeycloakTs.keycloakUrl, KeycloakTs.keycloakRealm,
    KeycloakTs.keycloakClientId.
  rewrite <- !or_else_truthy.
  repeat split.
  - rewrite !or_else_nonempty; [reflexivity|discriminate..].
  - eexists. split; [apply main_runs|]. repeat split. left. reflexivity.
  - unfold SecurityKeycloakTs.keycloak; cbn [fst].
    now destruct (Js.truthy_string (VITE_KEYCLOAK_URL env)).
Qed.

(** ** Bootstrap *)

Lemma run_settled (ss : list Main.Settlement) (pg : Main.Page) :
  Main.init pg <> Main.Pending -> Main.run ss pg = pg.
Proof.
  revert pg. induction ss as [|s ss IH]; intros pg Hs; [reflexivity|].
  cbn. unfold Main.settle.
  destruct (Main.init pg) eqn:E; [contradiction| |]; apply IH; now rewrite E.
Qed.

(** The first settlement decides what a page that is still pending shows. *)
Lemma run_pending (ss : list Main.Settlement) (pg : Main.Page) :
  Main.init pg = Main.Pending ->
  Main.run ss pg =
    match ss with
    | [] => pg
    | Main.resolve a :: _ => Main.onFulfilled a pg
    | Main.reject e :: _ => Main.onRejected e pg
    end.
Proof.
  intros Hp. destruct ss as [|[a|e] ss]; [reflexivity| |];
    cbn; unfold Main.settle; rewrite Hp; now apply run_settled.
Qed.

(** C5: from the moment the script has run and for as long as the
    initialization promise is pending, the root shows the loading element,
    a single [div] with the text "Initializing Keycloak...", and nothing else
    has ever been rendered; no component is mounted.  The application, which
    holds every route, is on screen only once the promise is no longer
    pending. *)
Theorem loading_until_bootstrap_settles
    (env : ImportMetaEnv) (rootElement : bool)
    (ss : list Main.Settlement) (pg : Main.Page) :
  Main.main env rootElement = Js.Ok pg ->
  let pg' := Main.run ss pg in
  (Main.init pg' = Main.Pending ->
     Main.displayed pg' = Main.loading /\
     Main.displayed pg'
       = el "React.StrictMode" [el "div" [text "Initializing Keycloak..."]] /\
     textOf (Main.displayed pg') = ["Initializing Keycloak..."] /\
     mounted (Main.displayed pg') = [] /\
     Main.showsRoutes pg' = false /\
     (forall e, In (RootRender e) (Main.trace pg') -> e = Main.loading) /\
     (forall e, In (RootRender e) (Main.trace pg') ->
                textOf e = ["Initializing Keycloak..."] /\ mounted e = [])) /\
  (Main.showsRoutes pg' = true -> Main.init pg' <> Main.Pending) /\
  (In App_ref (mounted (Main.displayed pg')) ->
   Main.init pg' <> Main.Pending).
Proof.
  intros Hm. apply main_ok_inv in Hm as [_ ->]. cbn zeta.
  rewrite run_pending by reflexivity.
  destruct ss as [|[a|e] ss]; cbn.
  - split; [intros _|split; [discriminate|intros []]].
    repeat split.
    + intros e [H|[H|[H|[]]]]; try discriminate. now inversion H.
    + destruct H as [H|[H|[H|[]]]]; try discriminate.
      inversion H. reflexivity.
    + destruct H as [H|[H|[H|[]]]]; try discriminate.
      inversion H. reflexivity.
  - split; [discriminate|]. split; intros _; discriminate.
  - split; [discriminate|]. split; [discriminate|intros []].
Qed.

Lemma loading_until_bootstrap_settles_witness :
  (let pg' := Main.run [] {| Main.displayed := Main.loading;
             Main.trace := [KeycloakNew (KeycloakTs.keycloakConfig scenarioEnv);
                            RootRender Main.loading;
                            KeycloakInit Main.initOptions];
             Main.init := Main.Pending |} in
   Main.displayed pg' = Main.loading /\
   Main.displayed pg'
     = el "React.StrictMode" [el "div" [text "Initializing Keycloak..."]] /\
   textOf (Main.displayed pg') = ["Initializing Keycloak..."] /\
   mounted (Main.displayed pg') = [] /\
   Main.showsRoutes pg' = false /\
   (forall e, In (RootRender e) (Main.trace pg') -> e = Main.loading) /\
   (forall e, In (RootRender e) (Main.trace pg') ->
              textOf e = ["Initializing Keycloak..."] /\ mounted e = [])) /\
  (let pg' := Main.run [Main.resolve false]
            {| Main.displayed := Main.loading;
             Main.trace := [KeycloakNew (KeycloakTs.keycloakConfig scenarioEnv);
                            RootRender Main.loading;
                            KeycloakInit Main.initOptions];
             Main.init := Main.Pending |} in
   In App_ref (mounted (Main.displayed pg')) /\
   Main.init pg' <> Main.Pending).
Proof.
  split.
  - apply (loading_until_bootstrap_settles scenarioEnv true [] _
             (main_runs scenarioEnv)).
    reflexivity.
  - assert (H : In App_ref
                   (mounted (Main.displayed
                      (Main.run [Main.resolve false]
                         {| Main.displayed := Main.loading;
                            Main.trace :=
                              [KeycloakNew
                                 (KeycloakTs.keycloakConfig scenarioEnv);
                               RootRender Main.loading;
                               KeycloakInit Main.initOptions];
                            Main.init := Main.Pending |})))).
    { left. reflexivity. }
    split; [exact H|].
    exact (proj2 (proj2 (loading_until_bootstrap_settles scenarioEnv true
                           [Main.resolve false] _ (main_runs scenarioEnv)))
                 H).
Defined.

(** C6: in every run in which the initialization promise rejects, the root
    shows the error panel with its heading, its advice and the error; the
    failure is logged; [init] is not invoked again, and no later settlement
    changes the page, which only a fresh run of the script leaves. *)
Theorem bootstrap_failure_shows_error
    (env : ImportMetaEnv) (rootElement : bool) (error : ErrorValue)
    (ss : list Main.Settlement) (pg : Main.Page) :
  Main.main env rootElement = Js.Ok pg ->
  let pg' := Main.run (Main.reject error :: ss) pg in
  Main.displayed pg' = Main.errorPanel error /\
  textOf (Main.displayed pg') =
    ["Error Initializing Keycloak";
     "Could not connect to the authentication server. Please check the console for details and ensure Keycloak is running and configured correctly.";
     error] /\
  In (ConsoleError "Keycloak initialization failed:" (Some error))
     (Main.trace pg') /\
  count isInit (Main.trace pg') = 1 /\
  Main.showsRoutes pg' = false /\
  (forall ss', Main.run ss' pg' = pg') /\
  (exists fresh, Main.main env rootElement = Js.Ok fresh /\
                 Main.init fresh = Main.Pending).
Proof.
  intros Hm. pose proof Hm as Hm'.
  apply main_ok_inv in Hm as [-> ->]. cbn zeta.
  rewrite run_pending by reflexivity.
  repeat split.
  - cbn. right. right. right. left. reflexivity.
  - intros ss'. now apply run_settled.
  - eexists. split; [exact Hm'|reflexivity].
Qed.

Lemma bootstrap_failure_shows_error_witness :
  let pg' := Main.run [Main.reject "{}"; Main.resolve true]
               {| Main.displayed := Main.loading;
                  Main.trace :=
                    [KeycloakNew (KeycloakTs.keycloakConfig scenarioEnv);
                     RootRender Main.loading;
                     KeycloakInit Main.initOptions];
                  Main.init := Main.Pending |} in
  Main.displayed pg' = Main.errorPanel "{}" /\
  count isInit (Main.trace pg') = 1 /\
  Main.showsRoutes pg' = false.
Proof.
  pose proof (bootstrap_failure_shows_error scenarioEnv true "{}"
                [Main.resolve true] _ (main_runs scenarioEnv)) as H.
  cbn zeta in H. destruct H as (H1 & _ & _ & H4 & H5 & _).
  cbn zeta. auto.
Defined.

(** ** The session watcher *)

Create HintDb watcher.

Lemma run_cons (i : Navbar.Input) (inputs : list Navbar.Input)
    (s : Navbar.Session) :
  Navbar.run (i :: inputs) s = Navbar.run inputs (Navbar.step i s).
Proof. reflexivity. Qed.

Lemma start_subscribed (kc : Keycloak) : subscribed (Navbar.start kc).
Proof. intros []; reflexivity. Qed.

(** No input touches the callback slots: only the effect writes them. *)
Lemma step_slots (i : Navbar.Input) (s : Navbar.Session)
    (e : Navbar.AdapterEvent) :
  Navbar.slot e (Navbar.keycloak (Navbar.step i s))
  = Navbar.slot e (Navbar.keycloak s).
Proof.
  destruct i as [a|e'|r|]; cbn.
  - now destruct e.
  - unfold Navbar.deliver.
    destruct (Navbar.slot e' (Navbar.keycloak s)) as [[]|]; reflexivity.
  - unfold Navbar.settleUpdateToken.
    destruct (Navbar.refreshing s); [reflexivity|]. now destruct r.
  - unfold Navbar.clickButton.
    now destruct (Js.truthy (Navbar.isAuthenticated s)).
Qed.

Lemma step_subscribed (i : Navbar.Input) (s : Navbar.Session) :
  subscribed s -> subscribed (Navbar.step i s).
Proof. intros H e. rewrite step_slots. apply H. Qed.

Lemma run_subscribed (inputs : list Navbar.Input) (s : Navbar.Session) :
  subscribed s -> subscribed (Navbar.run inputs s).
Proof.
  revert s. induction inputs as [|i inputs IH]; intros s H; [exact H|].
  rewrite run_cons. apply IH, step_subscribed, H.
Qed.

Lemma deliver_subscribed (e : Navbar.AdapterEvent) (s : Navbar.Session) :
  subscribed s -> Navbar.deliver e s = Navbar.call (registered e) s.
Proof. intros H. unfold Navbar.deliver. now rewrite H. Qed.

Lemma start_definite (kc : Keycloak) : definite (Navbar.start kc).
Proof. eexists. reflexivity. Qed.

Lemma step_definite (i : Navbar.Input) (s : Navbar.Session) :
  definite s -> definite (Navbar.step i s).
Proof.
  intros [b Hb]. destruct i as [a|e|r|]; cbn.
  - now exists b.
  - unfold Navbar.deliver.
    destruct (Navbar.slot e (Navbar.keycloak s)) as [[]|];
      cbn; eexists; solve [reflexivity | eassumption].
  - unfold Navbar.settleUpdateToken.
    destruct (Navbar.refreshing s); [now exists b|].
    destruct r; now exists b.
  - unfold Navbar.clickButton.
    destruct (Js.truthy (Navbar.isAuthenticated s)); now exists b.
Qed.

Lemma run_definite (inputs : list Navbar.Input) (s : Navbar.Session) :
  definite s -> definite (Navbar.run inputs s).
Proof.
  revert s. induction inputs as [|i inputs IH]; intros s H; [exact H|].
  rewrite run_cons. apply IH, step_definite, H.
Qed.

#[local] Hint Resolve start_subscribed run_subscribed step_subscribed
  start_definite run_definite step_definite : watcher.

(** Before the effect has run the state cell may hold [undefined]. *)
Example cell_undefined_before_effect :
  Navbar.isAuthenticated (Navbar.mount freshHandle) = None.
Proof. reflexivity. Qed.

(** What a run of refresh failures adds to the trace. *)
Lemma refresh_failures_trace (n : nat) (s : Navbar.Session) :
  subscribed s ->
  exists cs,
    Navbar.calls (Navbar.run (refreshFailures n) s)
      = (Navbar.calls s ++ cs)%list /\
    count isLogout cs = n /\
    count isUpdateToken cs = 0 /\
    Navbar.isAuthenticated (Navbar.run (refreshFailures n) s)
      = Navbar.isAuthenticated s /\
    Navbar.refreshing (Navbar.run (refreshFailures n) s)
      = Navbar.refreshing s.
Proof.
  revert s. induction n as [|n IH]; intros s Hs.
  - exists []. cbn. rewrite app_nil_r. auto.
  - unfold refreshFailures. cbn [repeat]. rewrite run_cons.
    fold (refreshFailures n).
    set (s1 := Navbar.step (Navbar.event Navbar.AuthRefreshError) s).
    assert (Hs1 : subscribed s1) by (subst s1; now apply step_subscribed).
    assert (H1 : Navbar.calls s1 =
                 (Navbar.calls s ++
                  [ConsoleWarn "Auth refresh error, logging out";
                   KeycloakLogout])%list
                 /\ Navbar.isAuthenticated s1 = Navbar.isAuthenticated s
                 /\ Navbar.refreshing s1 = Navbar.refreshing s).
    { subst s1. cbn [Navbar.step]. rewrite (deliver_subscribed _ _ Hs).
      cbn. now rewrite <- app_assoc. }
    destruct H1 as (Hc1 & Hf1 & Hr1).
    destruct (IH s1 Hs1) as (cs & Hc & Hl & Hu & Hf & Hr).
    exists ([ConsoleWarn "Auth refresh error, logging out"; KeycloakLogout]
              ++ cs)%list.
    rewrite Hc, Hc1, !count_app, Hl, Hu, Hf, Hf1, Hr, Hr1, <- !app_assoc.
    cbn. auto.
Qed.

(** C4, as the specification words it, fails: two refresh failures in a row
    issue two logout calls. *)
Lemma two_refresh_failures_two_logouts :
  Navbar.calls (Navbar.run (refreshFailures 2) (Navbar.start signedInHandle))
  = [ConsoleWarn "Auth refresh error, logging out"; KeycloakLogout;
     ConsoleWarn "Auth refresh error, logging out"; KeycloakLogout] /\
  count isLogout
    (Navbar.calls (Navbar.run (refreshFailures 2)
                     (Navbar.start signedInHandle))) <> 1.
Proof. split; [reflexivity|discriminate]. Qed.

(** C4 (amended): the watcher answers every refresh-failure event with one
    logout call, so [n] such events issue [n] logout calls; it never asks
    for a refresh in response. *)
Theorem refresh_failures_each_log_out
    (kc : Keycloak) (pre : list Navbar.Input) (n : nat) :
  let s := Navbar.run pre (Navbar.start kc) in
  let s' := Navbar.run (refreshFailures n) s in
  count isLogout (Navbar.issued s s') = n /\
  count isUpdateToken (Navbar.issued s s') = 0 /\
  Navbar.refreshing s' = Navbar.refreshing s.
Proof.
  cbn zeta. set (s := Navbar.run pre (Navbar.start kc)).
  assert (Hs : subscribed s) by (subst s; auto with watcher).
  destruct (refresh_failures_trace n s Hs) as (cs & Hc & Hl & Hu & _ & Hr).
  rewrite (issued_app _ _ _ Hc). auto.
Qed.

(** C7: once the effect has run, whatever happened since, an auth-success
    event delivered while the adapter reports [authenticated = true] leaves
    the state cell at [true], and a logout event delivered while it reports
    [false] leaves it at [false].  The handler only writes the cell: it makes
    no call, so nothing is navigated or reloaded. *)
Theorem watcher_tracks_login_and_logout
    (kc : Keycloak) (pre : list Navbar.Input) :
  let s := Navbar.run pre (Navbar.start kc) in
  (authenticated (Navbar.keycloak s) = Some true ->
     Navbar.isAuthenticated (Navbar.step (Navbar.event Navbar.AuthSuccess) s)
       = Some true /\
     Navbar.calls (Navbar.step (Navbar.event Navbar.AuthSuccess) s)
       = Navbar.calls s) /\
  (authenticated (Navbar.keycloak s) = Some false ->
     Navbar.isAuthenticated (Navbar.step (Navbar.event Navbar.AuthLogout) s)
       = Some false /\
     Navbar.calls (Navbar.step (Navbar.event Navbar.AuthLogout) s)
       = Navbar.calls s).
Proof.
  cbn zeta. set (s := Navbar.run pre (Navbar.start kc)).
  assert (Hs : subscribed s) by (subst s; auto with watcher).
  cbn [Navbar.step]. rewrite !(deliver_subscribed _ _ Hs). cbn.
  split; intros ->; auto.
Qed.

Lemma watcher_tracks_login_and_logout_witness :
  (let s := Navbar.run [Navbar.flag (Some true)] (Navbar.start freshHandle) in
   Navbar.isAuthenticated s = Some false /\
   Navbar.isAuthenticated (Navbar.step (Navbar.event Navbar.AuthSuccess) s)
     = Some true) /\
  (let s := Navbar.run [Navbar.flag (Some false)]
              (Navbar.start signedInHandle) in
   Navbar.isAuthenticated s = Some true /\
   Navbar.isAuthenticated (Navbar.step (Navbar.event Navbar.AuthLogout) s)
     = Some false).
Proof.
  split; cbn zeta; (split; [reflexivity|]).
  - apply (watcher_tracks_login_and_logout freshHandle
             [Navbar.flag (Some true)]).
    reflexivity.
  - apply (watcher_tracks_login_and_logout signedInHandle
             [Navbar.flag (Some false)]).
    reflexivity.
Defined.

(** C8: on every token-expiry event the watcher logs the condition and calls
    [updateToken] with a margin of 30 seconds, and nothing else; when that
    promise settles, a logout call is issued if and only if it was rejected,
    and then exactly one. *)
Theorem token_expiry_refreshes_and_logs_out_on_failure
    (kc : Keycloak) (pre : list Navbar.Input) (r : Navbar.RefreshResult) :
  let s := Navbar.run pre (Navbar.start kc) in
  let s1 := Navbar.step (Navbar.event Navbar.TokenExpired) s in
  let s2 := Navbar.step (Navbar.updateTokenSettles r) s1 in
  Navbar.issued s s1
    = [ConsoleWarn "Token expired, attempting refresh";
       KeycloakUpdateToken 30] /\
  (In KeycloakLogout (Navbar.issued s1 s2) <-> r = Navbar.failed) /\
  count isLogout (Navbar.issued s1 s2)
    = match r with Navbar.failed => 1 | Navbar.refreshed _ => 0 end.
Proof.
  cbn zeta. set (s := Navbar.run pre (Navbar.start kc)).
  assert (Hs : subscribed s) by (subst s; auto with watcher).
  cbn [Navbar.step]. rewrite (deliver_subscribed _ _ Hs).
  cbn [registered Navbar.call].
  set (s1 := Navbar.onTokenExpired_body s).
  assert (H1 : Navbar.calls s1 =
               (Navbar.calls s ++
                [ConsoleWarn "Token expired, attempting refresh";
                 KeycloakUpdateToken 30])%list).
  { subst s1. cbn. now rewrite <- app_assoc. }
  split; [now apply issued_app|].
  destruct r as [b|].
  - assert (H2 : Navbar.calls (Navbar.settleUpdateToken (Navbar.refreshed b) s1)
                 = (Navbar.calls s1 ++ [])%list).
    { subst s1. cbn. now rewrite app_nil_r. }
    rewrite (issued_app _ _ _ H2). split; [|reflexivity].
    split; [intros []|discriminate].
  - assert (H2 : Navbar.calls (Navbar.settleUpdateToken Navbar.failed s1)
                 = (Navbar.calls s1 ++
                    [ConsoleError "Failed to refresh token, logging out" None;
                     KeycloakLogout])%list).
    { subst s1. cbn. now rewrite <- !app_assoc. }
    rewrite (issued_app _ _ _ H2). split; [|reflexivity].
    split; [reflexivity|]. intros _. right. left. reflexivity.
Qed.

(** C10, as the specification words it, fails: not every handler recomputes
    the state cell.  With the adapter's flag at [true] and the cell still at
    [false], the handlers of refresh failure and of token expiry run and
    leave the cell at [false], which is not the adapter's flag. *)
Lemma refresh_error_and_expiry_leave_cell :
  let s := Navbar.run [Navbar.flag (Some true)] (Navbar.start freshHandle) in
  authenticated (Navbar.keycloak s) = Some true /\
  Navbar.isAuthenticated s = Some false /\
  Navbar.isAuthenticated (Navbar.deliver Navbar.AuthRefreshError s)
    = Some false /\
  Navbar.isAuthenticated (Navbar.deliver Navbar.TokenExpired s)
    = Some false /\
  authenticated
    (Navbar.keycloak (Navbar.deliver Navbar.AuthRefreshError s)) = Some true /\
  authenticated
    (Navbar.keycloak (Navbar.deliver Navbar.TokenExpired s)) = Some true /\
  Navbar.isAuthenticated (Navbar.deliver Navbar.AuthRefreshError s)
    <> Some true.
Proof. cbn zeta. repeat split. discriminate. Qed.

(** C10 (amended): once the effect has run, the state cell holds a definite
    boolean, [true] or [false] and never [undefined], and every input keeps
    it so.  The effect's initial check and the handlers of auth success,
    logout and refresh success set it to the adapter's flag, with
    [undefined] read as [false]; the handlers of refresh failure and token
    expiry leave it as it is. *)
Theorem local_flag_definite_after_effect
    (kc : Keycloak) (pre : list Navbar.Input) :
  let s := Navbar.run pre (Navbar.start kc) in
  Navbar.isAuthenticated (Navbar.start kc)
    = Some (match authenticated kc with Some b => b | None => false end) /\
  (exists b : bool, Navbar.isAuthenticated s = Some b) /\
  Navbar.isAuthenticated s <> None /\
  (forall i, exists b : bool,
        Navbar.isAuthenticated (Navbar.step i s) = Some b) /\
  (forall e,
      Navbar.isAuthenticated (Navbar.deliver e s) =
        match e with
        | Navbar.AuthSuccess | Navbar.AuthLogout | Navbar.AuthRefreshSuccess =>
            Some (match authenticated (Navbar.keycloak s) with
                  | Some b => b
                  | None => false
                  end)
        | Navbar.AuthRefreshError | Navbar.TokenExpired =>
            Navbar.isAuthenticated s
        end).
Proof.
  cbn zeta. set (s := Navbar.run pre (Navbar.start kc)).
  assert (Hs : subscribed s) by (subst s; auto with watcher).
  assert (Hd : definite s) by (subst s; auto with watcher).
  split; [reflexivity|]. split; [exact Hd|].
  split; [destruct Hd as [b ->]; discriminate|].
  split.
  - intros i. now apply step_definite.
  - intros e. rewrite (deliver_subscribed _ _ Hs). now destruct e.
Qed.

(** ** Further properties of the guard and the route table *)



(** X2: a location whose matched branch does not contain the guard renders
    the same for every state of the adapter, makes no call and does not mount
    the protected page. *)
Theorem unguarded_routes_ignore_session
    (kc kc' : Keycloak) (location : string) :
  guarded location = false ->
  navigate kc location = navigate kc' location /\
  fst (navigate kc location) = [] /\
  ~ In ProtectedPage_ref (mounted (snd (navigate kc location))).
Proof.
  unfold guarded, navigate, Routes.
  destruct (matchesRoot location);
    [|destruct (matchesProtected location);
      [|destruct (matchesSplat location)]];
    cbn; intros H; try discriminate; repeat split; intros H';
    repeat (destruct H' as [H'|H']; try discriminate); contradiction.
Qed.

Lemma unguarded_routes_ignore_session_witness :
  navigate anonymousHandle "/" = navigate signedInHandle "/" /\
  fst (navigate anonymousHandle "/") = [] /\
  ~ In ProtectedPage_ref (mounted (snd (navigate anonymousHandle "/"))).
Proof.
  apply (unguarded_routes_ignore_session anonymousHandle signedInHandle "/").
  reflexivity.
Defined.

(** X3: at no location does the application mount the protected page unless
    the adapter's flag is [true]; the navigation bar is mounted at every
    location and for every state of the adapter, and the application makes
    no call beyond those of the route it renders. *)
Theorem protected_page_needs_authenticated
    (kc : Keycloak) (location : string) :
  (In ProtectedPage_ref (mounted (snd (App kc location))) ->
   authenticated kc = Some true) /\
  In Navbar_ref (mounted (snd (App kc location))) /\
  fst (App kc location) = fst (navigate kc location) /\
  count isLogin (fst (App kc location)) = 0.
Proof.
  unfold App, navigate, Routes.
  destruct (matchesRoot location);
    [|destruct (matchesProtected location);
      [|destruct (matchesSplat location)]];
    cbn [renderBranch]; unfold ProtectedRoute;
    try (destruct (authenticated kc) as [[]|]); cbn;
    (split; [|split; [left; reflexivity|split; reflexivity]]);
    intros H; try reflexivity;
    repeat (destruct H as [H|H]; try discriminate); try contradiction.
Qed.

Lemma protected_page_needs_authenticated_witness :
  In ProtectedPage_ref (mounted (snd (App signedInHandle "/protected"))) /\
  authenticated signedInHandle = Some true.
Proof.
  assert (H : In ProtectedPage_ref
                 (mounted (snd (App signedInHandle "/protected")))).
  { cbn. right. left. reflexivity. }
  split; [exact H|].
  exact (proj1 (protected_page_needs_authenticated
                  signedInHandle "/protected") H).
Defined.

(** ** Further properties of the configuration modules *)

Lemma or_else_present (v : option string) (d : string) :
  Js.truthy_string v = true -> Some (Js.or_else v d) = v.
Proof.
  destruct v as [s|]; simpl; [|discriminate].
  now destruct (s =? "").
Qed.

Lemma or_else_same_truthy (v : option string) (d : string) :
  d <> "" -> Some (Js.or_else v d) = v -> Js.truthy_string v = true.
Proof.
  intros Hd H. rewrite <- H. now apply or_else_nonempty.
Qed.

(** X4: the two configuration modules make the same calls and export the same
    instance exactly when none of the three values is missing; then the
    adapter is constructed with the values of the environment unchanged. *)
Theorem configuration_modules_agree_iff_complete (env : ImportMetaEnv) :
  (SecurityKeycloakTs.keycloak env = KeycloakTs.keycloak env
   <-> missingValue env = false) /\
  (missingValue env = false ->
   KeycloakTs.keycloakConfig env =
     {| url := VITE_KEYCLOAK_URL env;
        realm := VITE_KEYCLOAK_REALM env;
        clientId := VITE_KEYCLOAK_CLIENT_ID env |}).
Proof.
  unfold missingValue.
  assert (Hcfg : Js.truthy_string (VITE_KEYCLOAK_URL env) = true ->
                 Js.truthy_string (VITE_KEYCLOAK_REALM env) = true ->
                 Js.truthy_string (VITE_KEYCLOAK_CLIENT_ID env) = true ->
                 KeycloakTs.keycloakConfig env
                 = SecurityKeycloakTs.keycloakConfig env).
  { intros H1 H2 H3.
    unfold KeycloakTs.keycloakConfig, SecurityKeycloakTs.keycloakConfig,
      KeycloakTs.keycloakUrl, KeycloakTs.keycloakRealm,
      KeycloakTs.keycloakClientId.
    now rewrite !or_else_present. }
  split; [split|].
  - intros H.
    assert (Hc : SecurityKeycloakTs.keycloakConfig env
                 = KeycloakTs.keycloakConfig env).
    { apply (f_equal (fun r => config (snd r))) in H. exact H. }
    unfold KeycloakTs.keycloakConfig, SecurityKeycloakTs.keycloakConfig,
      KeycloakTs.keycloakUrl, KeycloakTs.keycloakRealm,
      KeycloakTs.keycloakClientId in Hc.
    inversion Hc as [[H1 H2 H3]].
    symmetry in H1, H2, H3.
    apply or_else_same_truthy in H1, H2, H3; try discriminate.
    now rewrite H1, H2, H3.
  - intros H.
    apply orb_false_iff in H as [H H3]. apply orb_false_iff in H as [H1 H2].
    apply negb_false_iff in H1, H2, H3.
    unfold SecurityKeycloakTs.keycloak, KeycloakTs.keycloak.
    rewrite H1, (Hcfg H1 H2 H3). reflexivity.
  - intros H.
    apply orb_false_iff in H as [H H3]. apply orb_false_iff in H as [H1 H2].
    apply negb_false_iff in H1, H2, H3.
    exact (Hcfg H1 H2 H3).
Qed.

Lemma configuration_modules_agree_iff_complete_witness :
  SecurityKeycloakTs.keycloak scenarioEnv = KeycloakTs.keycloak scenarioEnv /\
  KeycloakTs.keycloakConfig scenarioEnv =
    {| url := Some "http://id.example";
       realm := Some "r1";
       clientId := Some "c1" |}.
Proof.
  destruct (configuration_modules_agree_iff_complete scenarioEnv) as [H1 H2].
  split; [apply H1; reflexivity|apply H2; reflexivity].
Defined.

(** ** Further properties of the bootstrap script *)

(** X5: in every run of the script on a page that has the root node,
    however the initialization promise settles and however often, the adapter
    is constructed first, the loading element is rendered next and
    [keycloak.init] is invoked third, with [login-required] and [S256], and
    never again; the root is rendered at most twice, and the script itself
    never calls login or logout. *)
Theorem bootstrap_runs_init_once
    (env : ImportMetaEnv) (ss : list Main.Settlement) :
  exists pg,
    Main.main env true = Js.Ok pg /\
    let pg' := Main.run ss pg in
    firstn 3 (Main.trace pg') =
      [KeycloakNew (KeycloakTs.keycloakConfig env);
       RootRender Main.loading;
       KeycloakInit {| onLoad := "login-required"; pkceMethod := "S256" |}] /\
    count isInit (Main.trace pg') = 1 /\
    count (fun c => match c with RootRender _ => true | _ => false end)
          (Main.trace pg') <= 2 /\
    count isLogin (Main.trace pg') = 0 /\
    count isLogout (Main.trace pg') = 0.
Proof.
  eexists. split; [apply main_runs|]. cbn zeta.
  rewrite run_pending by reflexivity.
  destruct ss as [|[a|e] ss]; cbn; repeat split; lia.
Qed.


(** ** Further properties of the navigation bar *)

Lemma deliver_refreshes (e : Navbar.AdapterEvent) (s : Navbar.Session) :
  subscribed s -> refreshesCell e = true ->
  Navbar.deliver e s = Navbar.updateAuthState s.
Proof.
  intros Hs He. rewrite (deliver_subscribed _ _ Hs).
  destruct e; try discriminate; reflexivity.
Qed.

(** X7: once the adapter has written its flag and reported through auth
    success, logout or refresh success, a click on the bar's button calls
    logout (after the alert) when the flag is [true] and login when it is
    [false] or undefined; the click itself changes neither the state cell
    nor the adapter object. *)
Theorem button_acts_on_reported_state
    (kc : Keycloak) (pre : list Navbar.Input) (a : option bool)
    (e : Navbar.AdapterEvent) :
  refreshesCell e = true ->
  let s := Navbar.run (pre ++ [Navbar.flag a; Navbar.event e])
                      (Navbar.start kc) in
  let s' := Navbar.step Navbar.click s in
  Navbar.issued s s' =
    (if Js.nullish a false then [Alert "logout"; KeycloakLogout]
     else [KeycloakLogin]) /\
  Navbar.isAuthenticated s' = Navbar.isAuthenticated s /\
  Navbar.keycloak s' = Navbar.keycloak s.
Proof.
  intros He. cbn zeta. unfold Navbar.run. rewrite fold_left_app.
  fold (Navbar.run pre (Navbar.start kc)).
  set (s0 := Navbar.run pre (Navbar.start kc)).
  assert (Hs0 : subscribed s0) by (subst s0; auto with watcher).
  cbn [fold_left].
  assert (Hs1 : subscribed (Navbar.step (Navbar.flag a) s0))
    by now apply step_subscribed.
  cbn [Navbar.step]. cbn [Navbar.step] in Hs1.
  rewrite (deliver_refreshes _ _ Hs1 He).
  unfold Navbar.clickButton.
  destruct a as [[]|]; cbn; repeat split;
    rewrite <- ?app_assoc; apply skipn_length_app.
Qed.

Lemma button_acts_on_reported_state_witness :
  (let s := Navbar.run ([] ++ [Navbar.flag (Some true);
                               Navbar.event Navbar.AuthSuccess])
                       (Navbar.start freshHandle) in
   Navbar.issued s (Navbar.step Navbar.click s)
   = [Alert "logout"; KeycloakLogout]) /\
  (let s := Navbar.run ([] ++ [Navbar.flag None;
                               Navbar.event Navbar.AuthLogout])
                       (Navbar.start signedInHandle) in
   Navbar.issued s (Navbar.step Navbar.click s) = [KeycloakLogin]).
Proof.
  split.
  - apply (button_acts_on_reported_state freshHandle [] (Some true)
             Navbar.AuthSuccess).
    reflexivity.
  - apply (button_acts_on_reported_state signedInHandle [] None
             Navbar.AuthLogout).
    reflexivity.
Defined.

Lemma unsubscribed_quiet (inputs : list Navbar.Input) (s : Navbar.Session) :
  unsubscribed (Navbar.keycloak s) ->
  Navbar.refreshing s = 0 ->
  ~ In Navbar.click inputs ->
  unsubscribed (Navbar.keycloak (Navbar.run inputs s)) /\
  Navbar.calls (Navbar.run inputs s) = Navbar.calls s /\
  Navbar.isAuthenticated (Navbar.run inputs s) = Navbar.isAuthenticated s /\
  Navbar.refreshing (Navbar.run inputs s) = 0.
Proof.
  revert s. induction inputs as [|i inputs IH]; intros s Hu Hr Hc; [auto|].
  rewrite run_cons.
  assert (Hi : i <> Navbar.click) by (intros ->; apply Hc; now left).
  assert (Hc' : ~ In Navbar.click inputs) by (intros H; apply Hc; now right).
  destruct i as [a|e|r|]; [| | |contradiction]; cbn [Navbar.step].
  - destruct (IH (Navbar.adapterSets a s)) as (H1 & H2 & H3 & H4); auto.
    intros e. specialize (Hu e). now destruct e.
  - unfold Navbar.deliver. rewrite Hu. now apply IH.
  - unfold Navbar.settleUpdateToken. rewrite Hr. now apply IH.
Qed.

(** X8: as long as no function is stored in the adapter's callback slots,
    which is the case from construction until the effect runs, nothing the
    adapter does reaches the component: the state cell keeps the value it
    was mounted with and no call is made, whatever events fire, whatever the
    adapter writes to its flag and whatever promise settles. *)
Theorem events_before_effect_are_ignored
    (kc : Keycloak) (inputs : list Navbar.Input) :
  unsubscribed kc ->
  ~ In Navbar.click inputs ->
  let s := Navbar.run inputs (Navbar.mount kc) in
  Navbar.isAuthenticated s = authenticated kc /\
  Navbar.calls s = [] /\
  unsubscribed (Navbar.keycloak s).
Proof.
  intros Hu Hc. cbn zeta.
  destruct (unsubscribed_quiet inputs (Navbar.mount kc) Hu eq_refl Hc)
    as (H1 & H2 & H3 & _).
  auto.
Qed.

Lemma events_before_effect_are_ignored_witness :
  let s := Navbar.run [Navbar.flag (Some true);
                       Navbar.event Navbar.AuthSuccess;
                       Navbar.event Navbar.AuthRefreshError;
                       Navbar.event Navbar.TokenExpired;
                       Navbar.updateTokenSettles Navbar.failed]
                      (Navbar.mount freshHandle) in
  Navbar.isAuthenticated s = None /\
  Navbar.calls s = [] /\
  unsubscribed (Navbar.keycloak s).
Proof.
  apply (events_before_effect_are_ignored freshHandle).
  - intros []; reflexivity.
  - intros H. repeat (destruct H as [H|H]; try discriminate). contradiction.
Defined.

(** X9: the effect can be run on any state of the component: it leaves every
    slot holding the function registered for it, whatever was stored there
    before, makes no call and does not touch the adapter's flag; running it
    a second time changes nothing. *)
Theorem effect_subscribes_and_is_idempotent (s : Navbar.Session) :
  subscribed (Navbar.effect s) /\
  Navbar.effect (Navbar.effect s) = Navbar.effect s /\
  Navbar.calls (Navbar.effect s) = Navbar.calls s /\
  authenticated (Navbar.keycloak (Navbar.effect s))
    = authenticated (Navbar.keycloak s) /\
  Navbar.isAuthenticated (Navbar.effect s)
    = Some (Js.nullish (authenticated (Navbar.keycloak s)) false).
Proof.
  repeat split. intros []; reflexivity.
Qed.

(** X10: right after the effect, and right after every auth-success, logout
    or refresh-success event, the state cell is truthy exactly when the guard
    would render its outlet for the same adapter object.  A write of the
    adapter to its flag that is not followed by such an event leaves the
    cell as it was. *)
Theorem bar_and_guard_agree_after_update
    (kc : Keycloak) (pre : list Navbar.Input) (e : Navbar.AdapterEvent)
    (a : option bool) :
  refreshesCell e = true ->
  let s := Navbar.run pre (Navbar.start kc) in
  let s' := Navbar.step (Navbar.event e) s in
  Js.truthy (Navbar.isAuthenticated (Navbar.start kc))
    = rendersOutlet (snd (ProtectedRoute kc)) /\
  Js.truthy (Navbar.isAuthenticated s')
    = rendersOutlet (snd (ProtectedRoute (Navbar.keycloak s'))) /\
  Navbar.isAuthenticated (Navbar.step (Navbar.flag a) s)
    = Navbar.isAuthenticated s.
Proof.
  intros He. cbn zeta. set (s := Navbar.run pre (Navbar.start kc)).
  assert (Hs : subscribed s) by (subst s; auto with watcher).
  cbn [Navbar.step]. rewrite (deliver_refreshes _ _ Hs He).
  unfold ProtectedRoute. cbn.
  repeat split.
  - now destruct (authenticated kc) as [[]|].
  - now destruct (authenticated (Navbar.keycloak s)) as [[]|].
Qed.

Lemma bar_and_guard_agree_after_update_witness :
  let s := Navbar.run [Navbar.flag (Some true)] (Navbar.start freshHandle) in
  let s' := Navbar.step (Navbar.event Navbar.AuthSuccess) s in
  Js.truthy (Navbar.isAuthenticated s) = false /\
  rendersOutlet (snd (ProtectedRoute (Navbar.keycloak s))) = true /\
  Js.truthy (Navbar.isAuthenticated s')
    = rendersOutlet (snd (ProtectedRoute (Navbar.keycloak s'))).
Proof.
  cbn zeta. split; [reflexivity|]. split; [reflexivity|].
  apply (bar_and_guard_agree_after_update freshHandle
           [Navbar.flag (Some true)] Navbar.AuthSuccess None).
  reflexivity.
Defined.

(** Closes the counting facts about an explicit list of calls. *)
Ltac trace_facts :=
  cbn; repeat split; try lia;
  try (let n := fresh "n" in
       let H := fresh "H" in
       intros n H; cbn in H; intuition (try discriminate; congruence)).

(** What one input adds to the trace of a subscribed component. *)
Lemma step_calls (i : Navbar.Input) (s : Navbar.Session) :
  subscribed s ->
  exists cs,
    Navbar.calls (Navbar.step i s) = (Navbar.calls s ++ cs)%list /\
    count isUpdateToken cs = (if isTokenExpiry i then 1 else 0) /\
    count isLogout cs <= (if mayLogOut i then 1 else 0) /\
    (forall n, In (KeycloakUpdateToken n) cs -> n = 30) /\
    count isInit cs = 0.
Proof.
  intros Hs.
  assert (Hnil : forall t : Navbar.Session,
             Navbar.calls t = Navbar.calls s ->
             Navbar.calls t = (Navbar.calls s ++ [])%list)
    by (intros t ->; now rewrite app_nil_r).
  destruct i as [a|e|r|]; cbn [Navbar.step].
  - exists []. split; [now apply Hnil|trace_facts].
  - rewrite (deliver_subscribed _ _ Hs).
    destruct e; cbn [registered Navbar.call].
    1-3: exists []; (split; [now apply Hnil|trace_facts]).
    + exists [ConsoleWarn "Auth refresh error, logging out"; KeycloakLogout].
      split; [cbn; now rewrite <- app_assoc|trace_facts].
    + exists [ConsoleWarn "Token expired, attempting refresh";
              KeycloakUpdateToken 30].
      split; [cbn; now rewrite <- app_assoc|trace_facts].
  - unfold Navbar.settleUpdateToken.
    destruct (Navbar.refreshing s) as [|k].
    + exists []. split; [now apply Hnil|trace_facts].
    + destruct r as [b|].
      * exists []. split; [now apply Hnil|trace_facts].
      * exists [ConsoleError "Failed to refresh token, logging out" None;
                KeycloakLogout].
        split; [cbn; now rewrite <- app_assoc|trace_facts].
  - unfold Navbar.clickButton.
    destruct (Js.truthy (Navbar.isAuthenticated s)).
    + exists [Alert "logout"; KeycloakLogout].
      split; [cbn; now rewrite <- app_assoc|trace_facts].
    + exists [KeycloakLogin]. split; [reflexivity|trace_facts].
Qed.

Lemma run_calls (inputs : list Navbar.Input) (s : Navbar.Session) :
  subscribed s ->
  exists cs,
    Navbar.calls (Navbar.run inputs s) = (Navbar.calls s ++ cs)%list /\
    count isUpdateToken cs = length (filter isTokenExpiry inputs) /\
    count isLogout cs <= length (filter mayLogOut inputs) /\
    (forall n, In (KeycloakUpdateToken n) cs -> n = 30) /\
    count isInit cs = 0.
Proof.
  revert s. induction inputs as [|i inputs IH]; intros s Hs.
  - exists []. cbn. rewrite app_nil_r. repeat split; lia.
  - rewrite run_cons.
    destruct (step_calls i s Hs) as (c1 & E1 & U1 & L1 & M1 & I1).
    destruct (IH _ (step_subscribed i s Hs)) as (c2 & E2 & U2 & L2 & M2 & I2).
    exists (c1 ++ c2)%list.
    rewrite E2, E1, <- app_assoc, !count_app. cbn [filter].
    repeat split.
    + rewrite U1, U2. destruct (isTokenExpiry i); cbn; lia.
    + destruct (mayLogOut i); cbn; lia.
    + intros n H. apply in_app_or in H as [H|H]; auto.
    + lia.
Qed.

(** X11: after the effect, over any sequence of inputs, the component asks
    for a token refresh once per token-expiry event and never otherwise,
    always with a margin of 30 seconds; every logout call it makes answers a
    refresh-failure event, a rejected refresh or a click, so without any of
    these it never logs the user out; and it never calls [init]. *)
Theorem watcher_calls_are_accounted_for
    (kc : Keycloak) (pre inputs : list Navbar.Input) :
  let s := Navbar.run pre (Navbar.start kc) in
  let s' := Navbar.run inputs s in
  count isUpdateToken (Navbar.issued s s')
    = length (filter isTokenExpiry inputs) /\
  count isLogout (Navbar.issued s s') <= length (filter mayLogOut inputs) /\
  (forall n, In (KeycloakUpdateToken n) (Navbar.issued s s') -> n = 30) /\
  count isInit (Navbar.issued s s') = 0.
Proof.
  cbn zeta. set (s := Navbar.run pre (Navbar.start kc)).
  assert (Hs : subscribed s) by (subst s; auto with watcher).
  destruct (run_calls inputs s Hs) as (cs & E & H).
  now rewrite (issued_app _ _ _ E).
Qed.

(** ** The protected page *)

Lemma andThen_paragraph (v : option string) (label label' u : string) :
  andThen v (fun s => el "p" [text label; text s])
  = el "p" [text label'; text u]
  <-> label = label' /\ v = Some u /\ u <> "".
Proof.
  destruct v as [s|]; cbn.
  - destruct (s =? "") eqn:E.
    + split; [discriminate|]. intros (_ & H & Hu). inversion H; subst.
      apply String.eqb_eq in E. contradiction.
    + split.
      * intros H. inversion H; subst. repeat split.
        intros ->. discriminate.
      * intros (-> & H & _). now inversion H.
  - split; [discriminate|]. intros (_ & H & _). discriminate.
Qed.

(** X12: the protected page shows the user name exactly when the parsed
    token has a non-empty [preferred_username], and likewise the e-mail
    address; it shows the roles, as a JSON array, whenever the token has a
    role list, an empty one included.  Without a parsed token only the
    heading, the greeting and the label of the token dump remain. *)
Theorem protected_page_shows_present_claims
    (quote : string -> string) (stringifyToken : TokenParsed -> string)
    (tokenParsed : option TokenParsed) :
  let page := ProtectedPage quote stringifyToken tokenParsed in
  (forall u,
      In (el "p" [text "Username: "; text u]) (childrenOf page)
      <-> (exists t, tokenParsed = Some t /\ preferred_username t = Some u)
          /\ u <> "") /\
  (forall m,
      In (el "p" [text "Email: "; text m]) (childrenOf page)
      <-> (exists t, tokenParsed = Some t /\ email t = Some m) /\ m <> "") /\
  (forall r,
      In (el "p" [text "Roles: "; text r]) (childrenOf page)
      <-> exists t rs,
            tokenParsed = Some t /\ realm_access t = Some rs /\
            r = "[" ++ String.concat "," (map quote rs) ++ "]") /\
  (tokenParsed = None ->
   textOf page = ["Protected Page"; "If you see this, you are logged in!";
                  "Token Parsed: "]).
Proof.
  cbn zeta. unfold ProtectedPage, p. cbn [childrenOf div].
  split; [|split; [|split]].
  - intros u. split.
    + intros [H|[H|[H|[H|[H|[H|[]]]]]]]; try discriminate;
        apply andThen_paragraph in H as (Hl & Hv & Hu); try discriminate.
      split; [|exact Hu].
      destruct tokenParsed as [t|]; [|discriminate]. now exists t.
    + intros [(t & -> & Hv) Hu]. right. right. left.
      apply andThen_paragraph. auto.
  - intros m. split.
    + intros [H|[H|[H|[H|[H|[H|[]]]]]]]; try discriminate;
        apply andThen_paragraph in H as (Hl & Hv & Hu); try discriminate.
      split; [|exact Hu].
      destruct tokenParsed as [t|]; [|discriminate]. now exists t.
    + intros [(t & -> & Hv) Hu]. right. right. right. left.
      apply andThen_paragraph. auto.
  - intros r. split.
    + intros [H|[H|[H|[H|[H|[H|[]]]]]]]; try discriminate;
        apply andThen_paragraph in H as (Hl & Hv & Hu); try discriminate.
      destruct tokenParsed as [t|]; [|discriminate].
      destruct (realm_access t) as [rs|] eqn:E; [|discriminate].
      exists t, rs. cbn in Hv. inversion Hv. auto.
    + intros (t & rs & -> & Hv & ->). right. right. right. right. left.
      rewrite Hv. reflexivity.
  - intros ->. reflexivity.
Qed.

Lemma protected_page_shows_present_claims_witness :
  textOf (ProtectedPage (fun s => s) (fun _ => "{}") None)
  = ["Protected Page"; "If you see this, you are logged in!";
     "Token Parsed: "].
Proof.
  apply (protected_page_shows_present_claims (fun s => s) (fun _ => "{}")
           None).
  reflexivity.
Defined.
